(** * ichnaea: the base location provider

    A shallow embedding of [ichnaea/api/locate/provider.py]: the policy
    gate [should_locate], the cluster accuracy estimator
    [_estimate_accuracy] and the three telemetry hooks [log_hit],
    [log_success] and [log_failure] of the class [Provider]; and of
    [ichnaea/log.py]: [quote_statsd_path], the statsd client
    ([StatsClient.__init__], [_report], [timing]), the logging tween,
    the in-memory debug clients and [configure_raven].

    Conventions of the embedding.
    - Python numbers are [pynum]: an [int] is a [Z], a [float] is
      represented by the rational it denotes (rounding, infinities and
      NaN are outside the model, except in [timing], where the rounded
      product is a parameter).  Comparisons between the two are by
      numeric value, as in Python.
    - The code base is Python 2: [None] compares below every number, so
      [max(None, minimum)] is [minimum].  [opt_gt] writes this ordering
      out.
    - A call either returns or raises: [result].
    - The statsd and raven clients are explicit state: [Clients]. *)

From Stdlib Require Import ZArith QArith Qabs Qround Ascii Lia Lqa.
From stdpp Require Import gmap strings list pretty.

Local Open Scope Z_scope.

(** ** Python values *)

Inductive exception : Type :=
  | ValueError
  | TypeError
  | AttributeError
  | IndexError.

Definition exc_name (e : exception) : string :=
  match e with
  | ValueError => "ValueError"
  | TypeError => "TypeError"
  | AttributeError => "AttributeError"
  | IndexError => "IndexError"
  end.

Inductive result (A : Type) : Type :=
  | Returns (a : A)
  | Raises (e : exception).
Arguments Returns {A} a.
Arguments Raises {A} e.

Inductive pynum : Type :=
  | PyInt (z : Z)
  | PyFloat (q : Q).

Definition num_value (n : pynum) : Q :=
  match n with
  | PyInt z => inject_Z z
  | PyFloat q => q
  end.

(** [a > b] on numbers. *)
Definition num_gt (a b : pynum) : bool :=
  negb (Qle_bool (num_value a) (num_value b)).

(** [a * b]: an [int] only when both operands are. *)
Definition num_mul (a b : pynum) : pynum :=
  match a, b with
  | PyInt x, PyInt y => PyInt (x * y)
  | _, _ => PyFloat (num_value a * num_value b)
  end.

(** [float(a)]. *)
Definition float (a : pynum) : pynum := PyFloat (num_value a).

(** [a > b] on values that may be [None] (Python 2 ordering). *)
Definition opt_gt (a b : option pynum) : bool :=
  match a, b with
  | Some x, Some y => num_gt x y
  | Some _, None => true
  | None, _ => false
  end.

(** The builtin [max] on a sequence: the first item is the candidate and
    a later item replaces it only when it compares strictly greater; an
    empty sequence raises [ValueError]. *)
Fixpoint max_from {A : Type} (gt : A -> A -> bool) (cur : A) (l : list A) : A :=
  match l with
  | [] => cur
  | x :: l' => max_from gt (if gt x cur then x else cur) l'
  end.

Definition py_max {A : Type} (gt : A -> A -> bool) (l : list A) : result A :=
  match l with
  | [] => Raises ValueError
  | x :: l' => Returns (max_from gt x l')
  end.

(** ** The estimator *)

(** [Network = namedtuple('Network', ['key', 'lat', 'lon', 'range'])] *)
Record Network : Type := mkNetwork {
  key : string;
  lat : pynum;
  lon : pynum;
  range : option pynum;
}.

Section Estimator.

(** [ichnaea.geocalc.distance], imported by the module: a pure
    function of two coordinate pairs.  The caller scales its result by
    1000 to obtain meters. *)
Variable distance : pynum -> pynum -> pynum -> pynum -> pynum.

(** [distance(lat, lon, p.lat, p.lon) * 1000] *)
Definition meters_to (lat0 lon0 : pynum) (p : Network) : pynum :=
  num_mul (distance lat0 lon0 (lat p) (lon p)) (PyInt 1000).

Definition _estimate_accuracy (lat0 lon0 : pynum) (points : list Network)
    (minimum : pynum) : result (option pynum) :=
  let computed : result (option pynum) :=
    if (length points =? 1)%nat then
      match points !! 0%nat with
      | Some p0 => Returns (range p0)
      | None => Raises IndexError
      end
    else
      match py_max num_gt (meters_to lat0 lon0 <$> points) with
      | Returns d => Returns (Some d)
      | Raises e => Raises e
      end in
  match computed with
  | Raises e => Raises e
  | Returns accuracy =>
    let accuracy :=
      match accuracy with
      | Some a => Some (float a)
      | None => None
      end in
    py_max opt_gt [accuracy; Some minimum]
  end.

End Estimator.

(** A stand-in for the geodesic helper, used only to run the estimator
    on concrete inputs: the sum of the coordinate differences, as a
    float.  Every theorem below holds for an arbitrary [distance]. *)
Definition grid_distance (lat1 lon1 lat2 lon2 : pynum) : pynum :=
  PyFloat (Qabs (num_value lat2 - num_value lat1)
           + Qabs (num_value lon2 - num_value lon1)).

(** ** Queries, callers and clients *)

(** The values a fallback map can hold once decoded from a request. *)
Inductive pyvalue : Type :=
  | PyNone
  | PyBool (b : bool)
  | PyNum (n : pynum)
  | PyStr (s : string).

(** [bool(v)] *)
Definition truthy (v : pyvalue) : bool :=
  match v with
  | PyNone => false
  | PyBool b => b
  | PyNum n => negb (Qeq_bool (num_value n) 0)
  | PyStr s => negb (String.eqb s "")
  end.

(** The part of a query the provider base class reads.  [fallbacks] is
    the outcome of evaluating the attribute [query.fallbacks]: it raises,
    or it yields [None] or a dict keyed by field name. *)
Record Query : Type := mkQuery {
  fallbacks : result (option (gmap string pyvalue));
}.

(** The caller's API key as the provider sees it. *)
Record ApiKey : Type := mkApiKey {
  name : string;
  log : bool;
}.

(** The two clients a [StatsLogger] holds: the stat names counted so far
    and the exceptions captured so far, oldest first. *)
Record Clients : Type := mkClients {
  stats_client : list string;
  raven_client : list exception;
}.

(** [self.raven_client.captureException()] inside a handler for [e]. *)
Definition captureException (e : exception) (c : Clients) : Clients :=
  {| stats_client := stats_client c;
     raven_client := raven_client c ++ [e] |}.

(** How [str.format] renders an attribute that may still be [None]. *)
Definition format_field (v : option string) : string :=
  match v with
  | Some s => s
  | None => "None"
  end.

(** ** The provider *)

Record Provider : Type := mkProvider {
  fallback_field : option string;
  log_name : option string;
  api_key : ApiKey;
  api_name : string;
}.

(** Modelled from the spec: [StatsLogger.stat_count] of
    [ichnaea/api/locate/stats.py], which is not part of the sources.  The
    telemetry sink is [count(metric_name)], a counter increment under the
    given name.  The name that reaches the stats client is the stat with
    the [api_name] of the logger and a dot in front, as the test suite
    expects: a provider built with [api_name='m'] and [log_name = 'test']
    counts [m.test_hit], [m.api_log.test.test_hit] and
    [m.api_log.test.test_miss]. *)
Definition stat_count (self : Provider) (stat : string) (c : Clients)
    : Clients :=
  {| stats_client := stats_client c ++ [api_name self +:+ "." +:+ stat];
     raven_client := raven_client c |}.

Section Gate.

(** The location classes live in another module; the gate takes the
    current best location as an opaque argument. *)
Context {Location : Type}.

Definition should_locate (self : Provider) (query : Query)
    (location : Location) (c : Clients) : result bool * Clients :=
  match fallback_field self with
  | Some field =>
    match fallbacks query with
    | Returns (Some d) =>
      if negb (size d =? 0)%nat
      then (Returns (truthy (default (PyBool true) (d !! field))), c)
      else (Returns true, c)
    | Returns None => (Returns true, c)
    | Raises ValueError => (Returns true, captureException ValueError c)
    | Raises e => (Raises e, c)
    end
  | None => (Returns true, c)
  end.

End Gate.

Definition log_hit (self : Provider) (c : Clients) : Clients :=
  stat_count self (format_field (log_name self) +:+ "_hit") c.

Definition log_success (self : Provider) (c : Clients) : Clients :=
  if log (api_key self)
  then stat_count self ("api_log." +:+ name (api_key self) +:+ "."
                        +:+ format_field (log_name self) +:+ "_hit") c
  else c.

Definition log_failure (self : Provider) (c : Clients) : Clients :=
  if log (api_key self)
  then stat_count self ("api_log." +:+ name (api_key self) +:+ "."
                        +:+ format_field (log_name self) +:+ "_miss") c
  else c.

(** Fixtures of the test suite: a provider named [test] of the API [m]
    for the caller [test] with logging on, and the gate configured on
    [fallback]. *)
Definition test_provider : Provider :=
  {| fallback_field := None;
     log_name := Some "test";
     api_key := {| name := "test"; log := true |};
     api_name := "m" |}.

Definition fallback_provider : Provider :=
  {| fallback_field := Some "fallback";
     log_name := Some "test";
     api_key := {| name := "test"; log := true |};
     api_name := "m" |}.

Definition no_clients : Clients :=
  {| stats_client := []; raven_client := [] |}.

(** Observations for running the estimator: three points on a meridian
    and one record with a stored range of 50. *)
Definition origin : pynum := PyFloat 0.

Definition near_point : Network :=
  {| key := "near"; lat := PyFloat (1 # 200); lon := origin; range := None |}.

Definition mid_point : Network :=
  {| key := "mid"; lat := PyFloat (1 # 125); lon := origin; range := None |}.

Definition far_point : Network :=
  {| key := "far"; lat := PyFloat (3 # 250); lon := origin; range := None |}.

Definition ranged_point : Network :=
  {| key := "ranged"; lat := origin; lon := origin; range := Some (PyInt 50) |}.

(** ** [ichnaea/log.py]: strings *)

(** [s.replace(old, new)] where [old] and [new] are single characters. *)
Fixpoint replace_char (old new : ascii) (s : string) : string :=
  match s with
  | EmptyString => EmptyString
  | String a s' =>
    String (if Ascii.eqb a old then new else a) (replace_char old new s')
  end.

(** [s.lstrip(c)] where [c] is a single character. *)
Fixpoint lstrip_char (c : ascii) (s : string) : string :=
  match s with
  | EmptyString => EmptyString
  | String a s' => if Ascii.eqb a c then lstrip_char c s' else s
  end.

(** [s.lower()] on ASCII text. *)
Definition lower_char (a : ascii) : ascii :=
  let n := nat_of_ascii a in
  if ((65 <=? n) && (n <=? 90))%nat then ascii_of_nat (n + 32) else a.

Fixpoint lower (s : string) : string :=
  match s with
  | EmptyString => EmptyString
  | String a s' => String (lower_char a) (lower s')
  end.

(** Truthiness of a string, and of an attribute that is a string or
    [None]. *)
Definition str_truthy (s : string) : bool := negb (String.eqb s "").

Definition opt_str_truthy (s : option string) : bool :=
  match s with
  | Some s => str_truthy s
  | None => false
  end.

(** Whether a character occurs in a string. *)
Fixpoint occurs (c : ascii) (s : string) : bool :=
  match s with
  | EmptyString => false
  | String a s' => Ascii.eqb a c || occurs c s'
  end.

Definition quote_statsd_path (path : string) : string :=
  replace_char "@" "-" (lstrip_char "." (replace_char "/" "." path)).

(** ** [ichnaea/log.py]: the statsd client *)

(** The attributes [StatsClient] adds to its base class. *)
Record StatsClient : Type := mkStatsClient {
  metric_prefix : option string;
  tag_prefix : option string;
  tag_support : bool;
}.

(** [StatsClient.__init__]; host, port and buffer size go to the base
    class. *)
Definition StatsClient_init (metric_prefix tag_prefix : option string)
    (tag_support : bool) : StatsClient :=
  {| metric_prefix := metric_prefix;
     tag_prefix :=
       match tag_prefix with
       | Some s => if str_truthy s then Some (s +:+ "_") else Some s
       | None => None
       end;
     tag_support := tag_support |}.

(** The local [tags] of [_report]: [None] or a list on entry, rebound to
    a string when the tags are folded into the metric name. *)
Inductive tagsval : Type :=
  | TagsNone
  | TagsList (l : list string)
  | TagsStr (s : string).

Definition tags_truthy (t : tagsval) : bool :=
  match t with
  | TagsNone => false
  | TagsList l => negb (length l =? 0)%nat
  | TagsStr s => str_truthy s
  end.

(** The items [for tag in tags] visits; a string yields its characters. *)
Definition tags_items (t : tagsval) : list string :=
  match t with
  | TagsNone => []
  | TagsList l => l
  | TagsStr s => (fun a => String a EmptyString) <$> String.list_ascii_of_string s
  end.

Section Report.

(** [str] on a float; [str] on an int is its decimal numeral. *)
Variable str_float : Q -> string.

Definition str_num (n : pynum) : string :=
  match n with
  | PyInt z => pretty z
  | PyFloat q => str_float q
  end.

(** [sample_rate != 1] *)
Definition sampled (sample_rate : pynum) : bool :=
  negb (Qeq_bool (num_value sample_rate) 1).

(** [StatsClient._report].  [rnd] is what [random()] yields when it is
    called.  The result is the packet handed to [self._send], or [None]
    when the sample is dropped. *)
Definition _report (self : StatsClient) (metric metric_type : string)
    (value : pynum) (tags : option (list string)) (sample_rate rnd : pynum)
    : option string :=
  if sampled sample_rate && num_gt rnd sample_rate then None
  else
    let payload :=
      if opt_str_truthy (metric_prefix self)
      then [format_field (metric_prefix self) +:+ "."]
      else [] in
    let tags : tagsval :=
      match tags with
      | Some l => TagsList l
      | None => TagsNone
      end in
    let tags :=
      if tags_truthy tags && opt_str_truthy (tag_prefix self)
      then TagsList ((fun tag => format_field (tag_prefix self) +:+ tag)
                       <$> tags_items tags)
      else tags in
    let '(metric, tags) :=
      if tags_truthy tags && negb (tag_support self)
      then
        let joined :=
          String.concat "." (replace_char ":" "_" <$> tags_items tags) in
        (if str_truthy joined then metric +:+ "." +:+ joined else metric,
         TagsStr joined)
      else (metric, tags) in
    let payload :=
      payload ++ [metric; ":"; str_num value; "|"; metric_type] in
    let payload :=
      if sampled sample_rate
      then payload ++ ["|@"; str_num sample_rate]
      else payload in
    let payload :=
      if tags_truthy tags && tag_support self
      then payload ++ ["|#"; String.concat "," (tags_items tags)]
      else payload in
    Some (String.concat "" payload).

End Report.

(** [round(x)] of Python 2 followed by [int]: to the nearest integer,
    halves away from zero. *)
Definition py_round (q : Q) : Z :=
  if Qle_bool 0 q then Qfloor (q + (1 # 2)) else Qceiling (q - (1 # 2)).

Section Timing.

Context {R : Type}.

(** The product of two floats, rounded to double precision as the
    machine does; [1000 * value] converts the int and multiplies so. *)
Variable float_mul : Q -> Q -> Q.

(** The [timing] method of the base class, reached through [super]. *)
Variable super_timing : string -> pynum -> option (list string) -> pynum -> R.

(** [StatsClient.timing] *)
Definition timing (metric : string) (value : pynum)
    (tags : option (list string)) (sample_rate : pynum) : R :=
  let value :=
    match value with
    | PyFloat q => PyInt (py_round (float_mul 1000 q))
    | PyInt _ => value
    end in
  super_timing metric value tags sample_rate.

End Timing.

(** ** [ichnaea/log.py]: the in-memory clients *)

(** [deque(maxlen=n).append(x)]: the item is added on the right and, if
    the deque then exceeds its bound, one item is removed on the left. *)
Definition deque_append {A : Type} (maxlen : nat) (x : A) (q : list A) : list A :=
  let q' := q ++ [x] in
  if (maxlen <? length q')%nat then drop 1 q' else q'.

(** [DebugStatsClient._send_to_server] on [self.msgs = deque(maxlen=100)]. *)
Definition _send_to_server (packet : string) (msgs : list string) : list string :=
  deque_append 100 packet msgs.

(** [DebugRavenClient.send], which stores the keyword arguments. *)
Definition send {A : Type} (data : A) (msgs : list A) : list A :=
  deque_append 100 data msgs.

(** [_clear] of either client. *)
Definition _clear {A : Type} (msgs : list A) : list A := [].

(** ** [ichnaea/log.py]: the global raven client *)

Inductive transport_class : Type :=
  | GeventedHTTPTransport
  | HTTPTransport
  | ThreadedHTTPTransport.

Definition RAVEN_TRANSPORTS : gmap string transport_class :=
  <["gevent" := GeventedHTTPTransport]>
    (<["sync" := HTTPTransport]>
       (<["threaded" := ThreadedHTTPTransport]> ∅)).

Section Raven.

Context {Client Config : Type}.

(** The constructor [raven.Client(dsn=..., transport=...)], which may
    raise, for instance on a malformed DSN. *)
Variable RavenClient : Config -> transport_class -> result Client.

(** The module global [RAVEN_CLIENT] is threaded as state. *)
Definition set_raven_client (client : option Client)
    (RAVEN_CLIENT : option Client) : option Client * option Client :=
  (client, client).

Definition configure_raven (config : Config) (transport : option string)
    (_client : option Client) (RAVEN_CLIENT : option Client)
    : result (option Client) * option Client :=
  match _client with
  | Some c =>
    let '(r, g) := set_raven_client (Some c) RAVEN_CLIENT in (Returns r, g)
  | None =>
    match transport ≫= (fun t => RAVEN_TRANSPORTS !! t) with
    | None => (Raises ValueError, RAVEN_CLIENT)
    | Some transport =>
      match RavenClient config transport with
      | Raises e => (Raises e, RAVEN_CLIENT)
      | Returns client =>
        let '(r, g) := set_raven_client (Some client) RAVEN_CLIENT in
        (Returns r, g)
      end
    end
  end.

End Raven.

(** ** [ichnaea/log.py]: the logging tween *)

Record Request : Type := mkRequest {
  path : string;
  method : string;
}.

Record Response : Type := mkResponse {
  status_code : Z;
  body : string;
}.

(** An exception leaving the handler: the classes the tween tests it
    against with [except] and [isinstance], and its [status_code]. *)
Record raised : Type := mkRaised {
  is_BaseClientError : bool;
  is_HTTPRedirection : bool;
  is_HTTPClientError : bool;
  is_HTTPException : bool;
  is_Exception : bool;
  exc_status_code : Z;
}.

Inductive handled : Type :=
  | Responded (response : Response)
  | Failed (exc : raised).

(** Calls received by [registry.stats_client]. *)
Inductive stats_call : Type :=
  | Timing (metric : string) (value : Z) (tags : list string)
  | Incr (metric : string) (tags : list string).

(** The clients of the registry: the calls made on the stats client and
    the exceptions captured by the raven client, oldest first. *)
Record Registry : Type := mkRegistry {
  stats_calls : list stats_call;
  raven_captures : list raised;
}.

Definition stats_timing (metric : string) (value : Z) (tags : list string)
    (reg : Registry) : Registry :=
  {| stats_calls := stats_calls reg ++ [Timing metric value tags];
     raven_captures := raven_captures reg |}.

Definition stats_incr (metric : string) (tags : list string)
    (reg : Registry) : Registry :=
  {| stats_calls := stats_calls reg ++ [Incr metric tags];
     raven_captures := raven_captures reg |}.

Definition raven_capture (exc : raised) (reg : Registry) : Registry :=
  {| stats_calls := stats_calls reg;
     raven_captures := raven_captures reg ++ [exc] |}.

(** [log_tween_factory(handler, registry)] applied to a request.
    [start] and [now] are the two readings of [time.time()]: on entry and
    inside [timer_send]. *)
Definition log_tween (handler : Request -> Registry -> handled * Registry)
    (request : Request) (start now : Q) (reg : Registry)
    : handled * Registry :=
  let statsd_tags :=
    ["path:" +:+ quote_statsd_path (path request);
     "method:" +:+ lower (method request)] in
  let timer_send (reg : Registry) :=
    let duration := py_round ((now - start) * 1000) in
    stats_timing "request" duration statsd_tags reg in
  let counter_send (status_code : Z) (reg : Registry) :=
    stats_incr "request"
      (statsd_tags ++ ["status:" +:+ pretty status_code]) reg in
  match handler request reg with
  | (Failed exc, reg) =>
    if is_BaseClientError exc || is_HTTPRedirection exc then
      let reg := timer_send reg in
      let reg := counter_send (exc_status_code exc) reg in
      (Failed exc, reg)
    else if is_HTTPClientError exc then
      (Failed exc, reg)
    else if is_Exception exc then
      let reg := timer_send reg in
      let status :=
        if is_HTTPException exc then exc_status_code exc else 500 in
      let reg := counter_send status reg in
      let reg := raven_capture exc reg in
      (Failed exc, reg)
    else (Failed exc, reg)
  | (Responded response, reg) =>
    let reg := timer_send reg in
    let reg := counter_send (status_code response) reg in
    (Responded response, reg)
  end.

(** ** Fixtures for the logging module *)

(** A stand-in for [str] on floats, used only to run the client on
    concrete inputs: numerator, slash, denominator. *)
Definition fraction_str (q : Q) : string :=
  pretty (Qnum q) +:+ "/" +:+ pretty (Zpos (Qden q)).

(** The client of the default configuration: prefix [location], no tag
    prefix, tags folded into the name. *)
Definition default_client : StatsClient :=
  StatsClient_init (Some "location") (Some "") false.

(** Handlers that answer 200, and that fail with a 404 client error that
    is not one of the service's own. *)
Definition ok_handler (request : Request) (reg : Registry)
    : handled * Registry :=
  (Responded {| status_code := 200; body := "{}" |}, reg).

Definition not_found : raised :=
  {| is_BaseClientError := false;
     is_HTTPRedirection := false;
     is_HTTPClientError := true;
     is_HTTPException := true;
     is_Exception := true;
     exc_status_code := 404 |}.

Definition not_found_handler (request : Request) (reg : Registry)
    : handled * Registry :=
  (Failed not_found, reg).

Definition crash : raised :=
  {| is_BaseClientError := false;
     is_HTTPRedirection := false;
     is_HTTPClientError := false;
     is_HTTPException := false;
     is_Exception := true;
     exc_status_code := 0 |}.

Definition crash_handler (request : Request) (reg : Registry)
    : handled * Registry :=
  (Failed crash, reg).

Definition search_request : Request :=
  {| path := "/v1/search"; method := "POST" |}.

Definition no_registry : Registry :=
  {| stats_calls := []; raven_captures := [] |}.

(** ** Order facts about Python numbers and [max] *)

Definition num_le (a b : pynum) : Prop := (num_value a <= num_value b)%Q.

Lemma num_gt_true (a b : pynum) :
  num_gt a b = true <-> (num_value b < num_value a)%Q.
Proof.
  unfold num_gt. rewrite negb_true_iff.
  split.
  - intros H. apply Qnot_le_lt. rewrite <- Qle_bool_iff. congruence.
  - intros H. destruct (Qle_bool (num_value a) (num_value b)) eqn:E; [|done].
    apply Qle_bool_iff in E. exfalso. exact (Qlt_not_le _ _ H E).
Qed.

Lemma num_gt_false (a b : pynum) : num_gt a b = false <-> num_le a b.
Proof.
  unfold num_gt, num_le. rewrite negb_false_iff. apply Qle_bool_iff.
Qed.

Lemma num_le_refl (a : pynum) : num_le a a.
Proof. apply Qle_refl. Qed.

Lemma num_le_trans (a b c : pynum) : num_le a b -> num_le b c -> num_le a c.
Proof. apply Qle_trans. Qed.

Lemma num_le_float_r (a b : pynum) : num_le a (float b) <-> num_le a b.
Proof. done. Qed.

Lemma num_le_float_l (a b : pynum) : num_le (float a) b <-> num_le a b.
Proof. done. Qed.

Lemma max_from_elem {A : Type} (gt : A -> A -> bool) (l : list A) (cur : A) :
  max_from gt cur l = cur \/ max_from gt cur l ∈ l.
Proof.
  revert cur. induction l as [|x l IH]; intros cur; simpl; [by left|].
  destruct (IH (if gt x cur then x else cur)) as [-> | Hin].
  - destruct (gt x cur); [right; left | by left].
  - right. by right.
Qed.

Lemma max_from_ge_cur (l : list pynum) (cur : pynum) :
  num_le cur (max_from num_gt cur l).
Proof.
  revert cur. induction l as [|x l IH]; intros cur; simpl.
  - apply num_le_refl.
  - destruct (num_gt x cur) eqn:E; [|apply IH].
    eapply num_le_trans; [|apply IH].
    apply Qlt_le_weak. by apply num_gt_true.
Qed.

Lemma max_from_upper (l : list pynum) (cur x : pynum) :
  x ∈ l -> num_le x (max_from num_gt cur l).
Proof.
  revert cur. induction l as [|y l IH]; intros cur Hin.
  - by apply elem_of_nil in Hin.
  - simpl. apply elem_of_cons in Hin as [-> | Hin]; [|by apply IH].
    eapply num_le_trans; [|apply max_from_ge_cur].
    destruct (num_gt y cur) eqn:E; [apply num_le_refl|].
    by apply num_gt_false.
Qed.


(** The final [max(accuracy, minimum)] when the computed accuracy is a
    number. *)
Lemma floor_at_minimum (a minimum : pynum) :
  exists r,
    py_max opt_gt [Some (float a); Some minimum] = Returns (Some r)
    /\ (num_le minimum a -> r = float a)
    /\ ((num_value a < num_value minimum)%Q -> r = minimum)
    /\ num_le a r /\ num_le minimum r.
Proof.
  unfold py_max, max_from, opt_gt.
  destruct (num_gt minimum (float a)) eqn:E.
  - apply num_gt_true in E. change (num_value (float a)) with (num_value a) in E.
    exists minimum. split; [done|]. split; [|split; [done|split]].
    + intros H. exfalso. exact (Qlt_not_le _ _ E H).
    + by apply Qlt_le_weak.
    + apply num_le_refl.
  - apply num_gt_false in E. change (num_le minimum a) in E.
    exists (float a). split; [done|]. split; [done|]. split; [|split].
    + intros H. exfalso. exact (Qlt_not_le _ _ H E).
    + apply Qle_refl.
    + done.
Qed.

(** [None] sorts below the floor. *)
Lemma floor_of_none (minimum : pynum) :
  py_max opt_gt [None; Some minimum] = Returns (Some minimum).
Proof. reflexivity. Qed.

Section EstimatorFacts.

Variable distance : pynum -> pynum -> pynum -> pynum -> pynum.
Variables lat0 lon0 minimum : pynum.

Lemma estimate_single (p : Network) :
  _estimate_accuracy distance lat0 lon0 [p] minimum
  = py_max opt_gt [float <$> range p; Some minimum].
Proof. unfold _estimate_accuracy. simpl. by destruct (range p). Qed.

Lemma estimate_several (p : Network) (ps : list Network) :
  ps <> [] ->
  _estimate_accuracy distance lat0 lon0 (p :: ps) minimum
  = py_max opt_gt
      [Some (float (max_from num_gt (meters_to distance lat0 lon0 p) (meters_to distance lat0 lon0 <$> ps)));
       Some minimum].
Proof.
  intros Hps. unfold _estimate_accuracy.
  destruct ps as [|p' ps]; [done|]. reflexivity.
Qed.

(** The largest scaled distance of a cluster of two or more
    observations, and the value returned for it. *)
Lemma estimate_cluster (points : list Network) :
  (2 <= length points)%nat ->
  exists d r,
    d ∈ (meters_to distance lat0 lon0 <$> points)
    /\ (forall p, p ∈ points -> num_le (meters_to distance lat0 lon0 p) d)
    /\ _estimate_accuracy distance lat0 lon0 points minimum = Returns (Some r)
    /\ (num_le minimum d -> r = float d)
    /\ ((num_value d < num_value minimum)%Q -> r = minimum)
    /\ num_le d r /\ num_le minimum r.
Proof.
  intros Hlen.
  destruct points as [|p ps]; [simpl in Hlen; lia|].
  assert (Hps : ps <> []) by (intros ->; simpl in Hlen; lia).
  set (d := max_from num_gt (meters_to distance lat0 lon0 p) (meters_to distance lat0 lon0 <$> ps)).
  destruct (floor_at_minimum d minimum) as (r & Hr & Hge & Hlt & Hdr & Hmr).
  exists d, r. split; [|split; [|split; [|done]]].
  - rewrite fmap_cons. unfold d.
    destruct (max_from_elem num_gt (meters_to distance lat0 lon0 <$> ps) (meters_to distance lat0 lon0 p)) as [-> | Hin].
    + by left.
    + by right.
  - intros q Hq. apply elem_of_cons in Hq as [-> | Hq].
    + apply max_from_ge_cur.
    + apply max_from_upper. by apply list_elem_of_fmap_2.
  - by rewrite estimate_several.
Qed.

End EstimatorFacts.

(** ** The cluster accuracy estimator *)

Section EstimatorClaims.

Variable distance : pynum -> pynum -> pynum -> pynum -> pynum.
Variables lat0 lon0 minimum : pynum.


(** C2, as amended. A single observation with a stored range yields that
    range, converted to float, when the minimum does not exceed it, and
    the minimum when the minimum is strictly larger. *)
Theorem estimate_accuracy_single_range (p : Network) (r : pynum) :
  range p = Some r ->
  (num_le minimum r ->
   _estimate_accuracy distance lat0 lon0 [p] minimum = Returns (Some (float r)))
  /\ ((num_value r < num_value minimum)%Q ->
      _estimate_accuracy distance lat0 lon0 [p] minimum = Returns (Some minimum)).
Proof.
  intros Hr. rewrite estimate_single, Hr. simpl fmap.
  destruct (floor_at_minimum r minimum) as (a & -> & Hge & Hlt & _).
  split; intros H; [by rewrite (Hge H) | by rewrite (Hlt H)].
Qed.

(** C3. For a non-empty sequence the estimator returns a number, and that
    number is at least the minimum; a lone observation without a range
    yields the minimum itself. *)
Theorem estimate_accuracy_at_least_minimum (points : list Network) :
  points <> [] ->
  (exists a,
     _estimate_accuracy distance lat0 lon0 points minimum = Returns (Some a)
     /\ num_le minimum a)
  /\ (forall p, points = [p] -> range p = None ->
      _estimate_accuracy distance lat0 lon0 points minimum
      = Returns (Some minimum)).
Proof.
  intros Hne. split.
  - destruct points as [|p [|p' ps]]; [done| |].
    + rewrite estimate_single. destruct (range p) as [r|]; simpl fmap.
      * destruct (floor_at_minimum r minimum) as (a & -> & _ & _ & _ & Hm).
        by exists a.
      * rewrite floor_of_none. exists minimum. split; [done|apply num_le_refl].
    + destruct (estimate_cluster distance lat0 lon0 minimum (p :: p' :: ps))
        as (d & r & _ & _ & Hest & _ & _ & _ & Hm); [simpl; lia|].
      by exists r.
  - intros p -> Hr. rewrite estimate_single, Hr. apply floor_of_none.
Qed.

(** C6, as amended. An empty sequence makes the estimator fail with the
    builtin [ValueError] of [max] on an empty list. *)
Theorem estimate_accuracy_empty_raises :
  _estimate_accuracy distance lat0 lon0 [] minimum = Raises ValueError.
Proof. reflexivity. Qed.

(** C7. With the position fixed, inserting one more observation into a
    cluster of two or more never lowers the returned accuracy. *)
Theorem estimate_accuracy_monotone (pre post : list Network) (p : Network) :
  (2 <= length (pre ++ post))%nat ->
  exists a a',
    _estimate_accuracy distance lat0 lon0 (pre ++ post) minimum
    = Returns (Some a)
    /\ _estimate_accuracy distance lat0 lon0 (pre ++ p :: post) minimum
      = Returns (Some a')
    /\ num_le a a'.
Proof.
  intros Hlen.
  destruct (estimate_cluster distance lat0 lon0 minimum (pre ++ post) Hlen)
    as (d & a & Hin & _ & Hest & Hge & Hlt & _ & _).
  destruct (estimate_cluster distance lat0 lon0 minimum (pre ++ p :: post))
    as (d' & a' & _ & Hub' & Hest' & _ & _ & Hda' & Hma').
  { rewrite length_app in *. simpl. lia. }
  exists a, a'. split; [done|]. split; [done|].
  destruct (Qlt_le_dec (num_value d) (num_value minimum)) as [Hd | Hd].
  - by rewrite (Hlt Hd).
  - rewrite (Hge Hd). apply num_le_float_l.
    eapply num_le_trans; [|exact Hda'].
    apply list_elem_of_fmap in Hin as (q & -> & Hq).
    apply Hub'. rewrite elem_of_app in Hq. rewrite elem_of_app, elem_of_cons.
    tauto.
Qed.

End EstimatorClaims.



(** The claim as written fails: a range of 50 under a minimum of 100
    comes back as 100. *)
Lemma estimate_accuracy_single_range_counterexample :
  ~ (exists a,
       _estimate_accuracy grid_distance origin origin [ranged_point] (PyInt 100)
       = Returns (Some a)
       /\ (num_value a == num_value (PyInt 50))%Q).
Proof.
  intros (a & Ha & Hv). vm_compute in Ha.
  injection Ha as <-. vm_compute in Hv. discriminate Hv.
Qed.

Lemma estimate_accuracy_single_range_witness :
  (num_le (PyInt 100) (PyInt 50) ->
   _estimate_accuracy grid_distance origin origin [ranged_point] (PyInt 100)
   = Returns (Some (float (PyInt 50))))
  /\ ((num_value (PyInt 50) < num_value (PyInt 100))%Q ->
      _estimate_accuracy grid_distance origin origin [ranged_point] (PyInt 100)
      = Returns (Some (PyInt 100))).
Proof.
  apply (estimate_accuracy_single_range grid_distance origin origin (PyInt 100)
           ranged_point (PyInt 50)).
  reflexivity.
Defined.

Lemma estimate_accuracy_at_least_minimum_witness :
  (exists a,
     _estimate_accuracy grid_distance origin origin [near_point] (PyInt 100)
     = Returns (Some a)
     /\ num_le (PyInt 100) a)
  /\ (forall p, [near_point] = [p] -> range p = None ->
      _estimate_accuracy grid_distance origin origin [near_point] (PyInt 100)
      = Returns (Some (PyInt 100))).
Proof.
  apply (estimate_accuracy_at_least_minimum grid_distance origin origin
           (PyInt 100) [near_point]).
  discriminate.
Defined.

(** The failure on an empty sequence is not one named [EmptyCluster]. *)
Lemma estimate_accuracy_empty_counterexample :
  ~ (exists e,
       _estimate_accuracy grid_distance origin origin [] (PyInt 100) = Raises e
       /\ exc_name e = "EmptyCluster").
Proof.
  intros (e & He & Hn). vm_compute in He. injection He as <-.
  discriminate Hn.
Qed.

Lemma estimate_accuracy_monotone_witness :
  exists a a',
    _estimate_accuracy grid_distance origin origin
      ([near_point] ++ [mid_point]) (PyInt 10)
    = Returns (Some a)
    /\ _estimate_accuracy grid_distance origin origin
        ([near_point] ++ far_point :: [mid_point]) (PyInt 10)
      = Returns (Some a')
    /\ num_le a a'.
Proof.
  apply (estimate_accuracy_monotone grid_distance origin origin (PyInt 10)
           [near_point] [mid_point] far_point).
  simpl. lia.
Defined.

(** ** The policy gate *)

(** A dict of length zero has no entries. *)
Lemma empty_dict_lookup (d : gmap string pyvalue) (field : string) :
  (size d =? 0)%nat = true -> d !! field = None.
Proof.
  intros H. apply Nat.eqb_eq, map_size_empty_iff in H. subst d.
  apply lookup_empty.
Qed.

Section GateClaims.

Context {Location : Type}.
Variables (self : Provider) (query : Query) (location : Location).
Variable c : Clients.

(** C4, as amended. Whenever reading the fallback map returns, the gate
    returns a boolean, and that boolean is false exactly when a fallback
    field is configured and the map holds, under that field, a value
    whose boolean coercion is false.  A missing key, an empty or absent
    map and any truthy value therefore give true. *)
Theorem should_locate_false_iff :
  (forall fb, fallbacks query = Returns fb ->
     exists b, (should_locate self query location c).1 = Returns b)
  /\ ((should_locate self query location c).1 = Returns false <->
      exists field d v,
        fallback_field self = Some field
        /\ fallbacks query = Returns (Some d)
        /\ d !! field = Some v
        /\ truthy v = false).
Proof.
  unfold should_locate. split.
  - intros fb Hfb. rewrite Hfb.
    destruct (fallback_field self) as [field|]; [|by eexists].
    destruct fb as [d|]; [|by eexists].
    destruct (negb (size d =? 0)%nat); by eexists.
  - split.
    + destruct (fallback_field self) as [field|]; [|done].
      destruct (fallbacks query) as [[d|]|[]]; try done.
      destruct (size d =? 0)%nat; [done|]. simpl.
      destruct (d !! field) as [v|] eqn:Hv; [|done]. simpl.
      intros [= Ht]. by exists field, d, v.
    + intros (field & d & v & -> & -> & Hv & Ht).
      destruct (size d =? 0)%nat eqn:Hsz.
      * apply (empty_dict_lookup d field) in Hsz. congruence.
      * simpl. by rewrite Hv, <- Ht.
Qed.

(** C5. Without a configured fallback field the gate returns true and
    touches neither client. *)
Theorem should_locate_without_fallback_field :
  fallback_field self = None ->
  should_locate self query location c = (Returns true, c).
Proof. intros H. unfold should_locate. by rewrite H. Qed.

(** C8, as amended. When reading [query.fallbacks] raises [ValueError]
    the gate does not raise: it returns true, and if a fallback field is
    configured the exception is handed to the raven client, once.  Only
    [ValueError] is recovered from. *)
Theorem should_locate_recovers :
  fallbacks query = Raises ValueError ->
  exists c',
    should_locate self query location c = (Returns true, c')
    /\ stats_client c' = stats_client c
    /\ raven_client c'
       = raven_client c
         ++ match fallback_field self with
            | Some _ => [ValueError]
            | None => []
            end.
Proof.
  intros H. unfold should_locate. rewrite H.
  destruct (fallback_field self); eexists; (split; [reflexivity|]); simpl.
  - done.
  - by rewrite app_nil_r.
Qed.

End GateClaims.

(** Exceptions other than [ValueError] are not handled by the gate. *)
Lemma should_locate_propagates {Location : Type} (self : Provider)
    (query : Query) (location : Location) (c : Clients) (e : exception) :
  is_Some (fallback_field self) ->
  fallbacks query = Raises e ->
  e <> ValueError ->
  should_locate self query location c = (Raises e, c).
Proof.
  intros [field Hf] Hq He. unfold should_locate. rewrite Hf, Hq.
  by destruct e.
Qed.

(** C10. The gate does not look at the current best location. *)
Theorem should_locate_ignores_location {L1 L2 : Type} (self : Provider)
    (query : Query) (location1 : L1) (location2 : L2) (c : Clients) :
  should_locate self query location1 c = should_locate self query location2 c.
Proof. reflexivity. Qed.

(** The claim as written fails: a configured field mapped to the integer
    0 closes the gate although the map does not hold the boolean false. *)
Lemma should_locate_false_counterexample :
  ~ ((should_locate fallback_provider
        (mkQuery (Returns (Some {["fallback" := PyNum (PyInt 0)]})))
        tt no_clients).1 = Returns false ->
     ({["fallback" := PyNum (PyInt 0)]} : gmap string pyvalue) !! "fallback"
     = Some (PyBool false)).
Proof.
  intros H. assert (Hf : ({["fallback" := PyNum (PyInt 0)]}
                          : gmap string pyvalue) !! "fallback"
                         = Some (PyBool false)).
  { apply H. vm_compute. reflexivity. }
  rewrite lookup_singleton_eq in Hf. discriminate Hf.
Qed.

Lemma should_locate_false_iff_witness :
  (should_locate fallback_provider
     (mkQuery (Returns (Some {["fallback" := PyBool false]})))
     tt no_clients).1 = Returns false.
Proof.
  apply (should_locate_false_iff fallback_provider
           (mkQuery (Returns (Some {["fallback" := PyBool false]})))
           tt no_clients).
  exists "fallback", {["fallback" := PyBool false]}, (PyBool false).
  split; [reflexivity|]. split; [reflexivity|].
  split; [apply lookup_singleton_eq | reflexivity].
Defined.

Lemma should_locate_without_fallback_field_witness :
  should_locate test_provider (mkQuery (Returns (Some ∅))) tt no_clients
  = (Returns true, no_clients).
Proof.
  apply (should_locate_without_fallback_field test_provider
           (mkQuery (Returns (Some ∅))) tt no_clients).
  reflexivity.
Defined.

(** The claim as written fails: a read that raises [TypeError] is not
    recovered from, the gate returns nothing. *)
Lemma should_locate_recovers_counterexample :
  ~ (exists c',
       should_locate fallback_provider (mkQuery (Raises TypeError)) tt
         no_clients
       = (Returns true, c')).
Proof. intros (c' & H). vm_compute in H. discriminate H. Qed.

Lemma should_locate_recovers_witness :
  exists c',
    should_locate fallback_provider (mkQuery (Raises ValueError)) tt no_clients
    = (Returns true, c')
    /\ stats_client c' = stats_client no_clients
    /\ raven_client c'
       = raven_client no_clients
         ++ match fallback_field fallback_provider with
            | Some _ => [ValueError]
            | None => []
            end.
Proof.
  apply (should_locate_recovers fallback_provider
           (mkQuery (Raises ValueError)) tt no_clients).
  reflexivity.
Defined.

(** ** Telemetry *)

(** C9, as amended. For a provider whose [log_name] is [n], [log_hit]
    counts [{api_name}.{n}_hit] whatever the caller's flag; [log_success]
    and [log_failure] count [{api_name}.api_log.{name}.{n}_hit] and
    [{api_name}.api_log.{name}.{n}_miss] when the caller's flag is set
    and nothing otherwise.  None of them touches the raven client. *)
Theorem telemetry_counters (self : Provider) (n : string) (c : Clients) :
  log_name self = Some n ->
  stats_client (log_hit self c)
  = stats_client c ++ [api_name self +:+ "." +:+ n +:+ "_hit"]
  /\ stats_client (log_success self c)
     = stats_client c
       ++ (if log (api_key self)
           then [api_name self +:+ ".api_log." +:+ name (api_key self)
                 +:+ "." +:+ n +:+ "_hit"]
           else [])
  /\ stats_client (log_failure self c)
     = stats_client c
       ++ (if log (api_key self)
           then [api_name self +:+ ".api_log." +:+ name (api_key self)
                 +:+ "." +:+ n +:+ "_miss"]
           else [])
  /\ raven_client (log_hit self c) = raven_client c
  /\ raven_client (log_success self c) = raven_client c
  /\ raven_client (log_failure self c) = raven_client c.
Proof.
  intros Hn. unfold log_hit, log_success, log_failure, stat_count.
  rewrite Hn. destruct (log (api_key self)); simpl; rewrite ?app_nil_r; done.
Qed.

(** The claim as written fails: the provider of the test suite counts
    [m.test_hit], not [test_hit]. *)
Lemma telemetry_counters_counterexample :
  stats_client (log_hit test_provider no_clients) <> ["test_hit"].
Proof. vm_compute. discriminate. Qed.

Lemma telemetry_counters_witness :
  stats_client (log_hit test_provider no_clients) = ["m.test_hit"]
  /\ stats_client (log_success test_provider no_clients)
     = ["m.api_log.test.test_hit"]
  /\ stats_client (log_failure test_provider no_clients)
     = ["m.api_log.test.test_miss"]
  /\ raven_client (log_hit test_provider no_clients) = []
  /\ raven_client (log_success test_provider no_clients) = []
  /\ raven_client (log_failure test_provider no_clients) = [].
Proof.
  apply (telemetry_counters test_provider "test" no_clients). reflexivity.
Defined.

(** ** Checks against the test suite *)

Example test_log_hit :
  stats_client (log_hit test_provider no_clients) = ["m.test_hit"].
Proof. reflexivity. Qed.

Example test_log_success :
  stats_client (log_success test_provider no_clients)
  = ["m.api_log.test.test_hit"].
Proof. reflexivity. Qed.

Example test_log_failure :
  stats_client (log_failure test_provider no_clients)
  = ["m.api_log.test.test_miss"].
Proof. reflexivity. Qed.

Example test_should_locate_is_true_if_no_fallback_set :
  should_locate test_provider (mkQuery (Returns (Some ∅))) tt no_clients
  = (Returns true, no_clients).
Proof. reflexivity. Qed.

Example test_should_not_locate_if_fallback_field_is_set :
  should_locate fallback_provider
    (mkQuery (Returns (Some {["fallback" := PyBool false]}))) tt no_clients
  = (Returns false, no_clients).
Proof. vm_compute. reflexivity. Qed.

Example test_should_locate_if_a_different_fallback_field_is_set :
  should_locate fallback_provider
    (mkQuery (Returns (Some {["another_fallback" := PyBool false]}))) tt no_clients
  = (Returns true, no_clients).
Proof. vm_compute. reflexivity. Qed.

Example test_should_locate_ignore_invalid_values :
  should_locate fallback_provider
    (mkQuery (Returns (Some {["fallback" := PyStr "asdf"]}))) tt no_clients
  = (Returns true, no_clients).
Proof. vm_compute. reflexivity. Qed.

(** Observations at 5, 8 and 12 meters with a minimum of 10 give 12; the
    same observations under a minimum of 100 give 100. *)
Example estimate_three_points :
  exists a,
    _estimate_accuracy grid_distance origin origin
      [near_point; mid_point; far_point] (PyInt 10) = Returns (Some a)
    /\ (num_value a == 12)%Q.
Proof. eexists. split; [vm_compute; reflexivity | reflexivity]. Qed.

Example estimate_three_points_floored :
  _estimate_accuracy grid_distance origin origin
    [near_point; mid_point; far_point] (PyInt 100) = Returns (Some (PyInt 100)).
Proof. vm_compute. reflexivity. Qed.

Example estimate_single_without_range :
  _estimate_accuracy grid_distance origin origin [near_point] (PyInt 100)
  = Returns (Some (PyInt 100)).
Proof. vm_compute. reflexivity. Qed.

(** ** More on the estimator *)

Section EstimatorMore.

Variable distance : pynum -> pynum -> pynum -> pynum -> pynum.
Variables lat0 lon0 : pynum.

(** A non-empty sequence reaches the final [max] with a computed
    accuracy that does not depend on the minimum. *)
Lemma estimate_floor (points : list Network) :
  points <> [] ->
  exists accuracy,
    forall minimum,
      _estimate_accuracy distance lat0 lon0 points minimum
      = py_max opt_gt [accuracy; Some minimum].
Proof.
  intros Hne. destruct points as [|p [|p' ps]]; [done| |].
  - exists (float <$> range p). intros m. apply estimate_single.
  - eexists. intros m. by apply estimate_several.
Qed.

Lemma floor_monotone (accuracy : option pynum) (m m' : pynum) :
  num_le m m' ->
  exists a a',
    py_max opt_gt [accuracy; Some m] = Returns (Some a)
    /\ py_max opt_gt [accuracy; Some m'] = Returns (Some a')
    /\ num_le a a'.
Proof.
  intros Hm. destruct accuracy as [x|].
  - unfold py_max, max_from, opt_gt.
    destruct (num_gt m x) eqn:E, (num_gt m' x) eqn:E'; eexists _, _;
      (split; [reflexivity|split; [reflexivity|]]).
    + done.
    + apply num_gt_true in E. apply num_gt_false in E'.
      exfalso. apply (Qlt_not_le _ _ E). by eapply num_le_trans.
    + apply num_gt_true in E'. by apply Qlt_le_weak.
    + apply num_le_refl.
  - exists m, m'. by rewrite !floor_of_none.
Qed.

(** X1. Raising the minimum never lowers the accuracy reported for a
    non-empty sequence. *)
Theorem estimate_accuracy_monotone_minimum (points : list Network)
    (m m' : pynum) :
  points <> [] ->
  num_le m m' ->
  exists a a',
    _estimate_accuracy distance lat0 lon0 points m = Returns (Some a)
    /\ _estimate_accuracy distance lat0 lon0 points m' = Returns (Some a')
    /\ num_le a a'.
Proof.
  intros Hne Hm. destruct (estimate_floor points Hne) as [acc Hacc].
  rewrite !Hacc. by apply floor_monotone.
Qed.


(** X3. For any sequence that is not a single observation only the
    coordinates of the observations matter: keys and stored ranges are
    never read. *)
Theorem estimate_accuracy_ignores_range (points points' : list Network)
    (minimum : pynum) :
  length points <> 1%nat ->
  (fun p => (lat p, lon p)) <$> points = (fun p => (lat p, lon p)) <$> points' ->
  _estimate_accuracy distance lat0 lon0 points minimum
  = _estimate_accuracy distance lat0 lon0 points' minimum.
Proof.
  intros Hlen Hco.
  assert (Hl : length points' = length points).
  { by rewrite <- (length_fmap (fun p => (lat p, lon p)) points'), <- Hco,
      length_fmap. }
  assert (Hm : meters_to distance lat0 lon0 <$> points
               = meters_to distance lat0 lon0 <$> points').
  { change (meters_to distance lat0 lon0)
      with ((fun c : pynum * pynum =>
               num_mul (distance lat0 lon0 c.1 c.2) (PyInt 1000))
            ∘ (fun p => (lat p, lon p))).
    by rewrite !list_fmap_compose, Hco. }
  unfold _estimate_accuracy. rewrite Hl, Hm.
  by destruct (length points =? 1)%nat eqn:E; [apply Nat.eqb_eq in E|].
Qed.

(** The largest scaled distance is the same number for any ordering. *)
Lemma estimate_cluster_permutation (points points' : list Network)
    (minimum : pynum) :
  (2 <= length points)%nat ->
  points ≡ₚ points' ->
  exists a a',
    _estimate_accuracy distance lat0 lon0 points minimum = Returns (Some a)
    /\ _estimate_accuracy distance lat0 lon0 points' minimum = Returns (Some a')
    /\ (num_value a == num_value a')%Q.
Proof.
  intros Hlen Hp.
  destruct (estimate_cluster distance lat0 lon0 minimum points Hlen)
    as (d & a & Hin & Hub & Hest & Hge & Hlt & _).
  destruct (estimate_cluster distance lat0 lon0 minimum points')
    as (d' & a' & Hin' & Hub' & Hest' & Hge' & Hlt' & _).
  { by rewrite <- Hp. }
  exists a, a'. split; [done|]. split; [done|].
  assert (Hdd : num_le d d').
  { apply list_elem_of_fmap in Hin as (q & -> & Hq). apply Hub'.
    by rewrite <- Hp. }
  assert (Hdd' : num_le d' d).
  { apply list_elem_of_fmap in Hin' as (q & -> & Hq). apply Hub.
    by rewrite Hp. }
  assert (Heq : (num_value d == num_value d')%Q) by by apply Qle_antisym.
  destruct (Qlt_le_dec (num_value d) (num_value minimum)) as [Hd | Hd].
  - rewrite (Hlt Hd), Hlt'; [reflexivity|]. by rewrite <- Heq.
  - rewrite (Hge Hd), Hge'; [exact Heq|].
    unfold num_le. by rewrite <- Heq.
Qed.

(** X4. Reordering the observations does not change the number
    returned. *)
Theorem estimate_accuracy_permutation (points points' : list Network)
    (minimum : pynum) :
  points <> [] ->
  points ≡ₚ points' ->
  exists a a',
    _estimate_accuracy distance lat0 lon0 points minimum = Returns (Some a)
    /\ _estimate_accuracy distance lat0 lon0 points' minimum = Returns (Some a')
    /\ (num_value a == num_value a')%Q.
Proof.
  intros Hne Hp. destruct points as [|p [|p' ps]]; [done| |].
  - apply Permutation_singleton_l in Hp. subst points'.
    destruct (estimate_floor [p]) as [acc Hacc]; [done|].
    destruct (floor_monotone acc minimum minimum (num_le_refl _))
      as (a & _ & Ha & _).
    exists a, a. rewrite Hacc. by split; [|split].
  - apply estimate_cluster_permutation; [simpl; lia|done].
Qed.

End EstimatorMore.

Lemma estimate_accuracy_monotone_minimum_witness :
  exists a a',
    _estimate_accuracy grid_distance origin origin [near_point; far_point]
      (PyInt 10) = Returns (Some a)
    /\ _estimate_accuracy grid_distance origin origin [near_point; far_point]
        (PyInt 100) = Returns (Some a')
    /\ num_le a a'.
Proof.
  apply (estimate_accuracy_monotone_minimum grid_distance origin origin
           [near_point; far_point] (PyInt 10) (PyInt 100)).
  - discriminate.
  - vm_compute. discriminate.
Defined.

Lemma estimate_accuracy_ignores_range_witness :
  _estimate_accuracy grid_distance origin origin
    [near_point; ranged_point] (PyInt 10)
  = _estimate_accuracy grid_distance origin origin
      [near_point; mkNetwork "other" origin origin None] (PyInt 10).
Proof.
  apply (estimate_accuracy_ignores_range grid_distance origin origin
           [near_point; ranged_point]
           [near_point; mkNetwork "other" origin origin None] (PyInt 10)).
  - simpl. lia.
  - reflexivity.
Defined.

Lemma estimate_accuracy_permutation_witness :
  exists a a',
    _estimate_accuracy grid_distance origin origin
      [near_point; mid_point; far_point] (PyInt 10) = Returns (Some a)
    /\ _estimate_accuracy grid_distance origin origin
        [far_point; near_point; mid_point] (PyInt 10) = Returns (Some a')
    /\ (num_value a == num_value a')%Q.
Proof.
  apply (estimate_accuracy_permutation grid_distance origin origin
           [near_point; mid_point; far_point]
           [far_point; near_point; mid_point] (PyInt 10)).
  - discriminate.
  - symmetry. apply (Permutation_cons_append [near_point; mid_point] far_point).
Defined.

(** ** More on the policy gate *)

Section GateMore.

Context {Location : Type}.
Variables (self : Provider) (query : Query) (location : Location).
Variable c : Clients.

(** X5. The gate raises exactly when a fallback field is configured and
    reading the fallback map raises something other than [ValueError];
    that exception is passed on unchanged. *)
Theorem should_locate_raises_iff (e : exception) :
  (should_locate self query location c).1 = Raises e
  <-> is_Some (fallback_field self)
      /\ fallbacks query = Raises e
      /\ e <> ValueError.
Proof.
  unfold should_locate. split.
  - destruct (fallback_field self) as [field|]; [|done].
    destruct (fallbacks query) as [[d|]|e'].
    + by destruct (negb (size d =? 0)%nat).
    + done.
    + destruct e'; simpl; intros [= <-]; by eauto.
  - intros ([field ->] & -> & He). by destruct e.
Qed.

(** X6. Unless reading the fallback map raised [ValueError], the gate
    leaves the stats and raven clients exactly as they were. *)
Theorem should_locate_leaves_clients :
  fallbacks query <> Raises ValueError ->
  (should_locate self query location c).2 = c.
Proof.
  intros H. unfold should_locate.
  destruct (fallback_field self) as [field|]; [|done].
  destruct (fallbacks query) as [[d|]|[]]; try done.
  by destruct (negb (size d =? 0)%nat).
Qed.

(** X7. On a fallback map whose values are all booleans, a configured
    gate is closed exactly when the map holds the boolean false under
    the provider's field. *)
Theorem should_locate_boolean_map (field : string)
    (d : gmap string pyvalue) :
  fallback_field self = Some field ->
  fallbacks query = Returns (Some d) ->
  (forall k v, d !! k = Some v -> exists b, v = PyBool b) ->
  (should_locate self query location c).1 = Returns false
  <-> d !! field = Some (PyBool false).
Proof.
  intros Hf Hq Hbool. unfold should_locate. rewrite Hf, Hq.
  destruct (size d =? 0)%nat eqn:Hsz; simpl.
  - rewrite (empty_dict_lookup d field Hsz). by split.
  - destruct (d !! field) as [v|] eqn:Hv; simpl; [|by split].
    destruct (Hbool field v Hv) as [b ->]. simpl.
    split; [by intros [= ->] | by intros [= ->]].
Qed.

End GateMore.

Lemma should_locate_leaves_clients_witness :
  (should_locate fallback_provider
     (mkQuery (Returns (Some {["fallback" := PyBool false]})))
     tt no_clients).2 = no_clients.
Proof.
  apply (should_locate_leaves_clients fallback_provider
           (mkQuery (Returns (Some {["fallback" := PyBool false]})))
           tt no_clients).
  discriminate.
Defined.

Lemma should_locate_boolean_map_witness :
  (should_locate fallback_provider
     (mkQuery (Returns (Some {["fallback" := PyBool false]})))
     tt no_clients).1 = Returns false
  <-> ({["fallback" := PyBool false]} : gmap string pyvalue) !! "fallback"
      = Some (PyBool false).
Proof.
  apply (should_locate_boolean_map fallback_provider
           (mkQuery (Returns (Some {["fallback" := PyBool false]})))
           tt no_clients "fallback" {["fallback" := PyBool false]}).
  - reflexivity.
  - reflexivity.
  - intros k v Hkv. apply lookup_singleton_Some in Hkv as [_ <-].
    by exists false.
Defined.

(** ** More on telemetry *)

Lemma append_length (s t : string) :
  String.length (s +:+ t) = (String.length s + String.length t)%nat.
Proof. induction s as [|a s IH]; simpl; [done|by rewrite IH]. Qed.

Lemma append_inj_r (s t u : string) : s +:+ t = s +:+ u -> t = u.
Proof. induction s as [|a s IH]; simpl; [done|]. intros [= H]. by apply IH. Qed.

(** X8. The three counters of a provider never share a name: the
    provider-wide hit, the per-caller hit and the per-caller miss are
    pairwise different strings. *)
Theorem telemetry_names_distinct (self : Provider) (c : Clients) :
  log (api_key self) = true ->
  stats_client (log_hit self c) <> stats_client (log_success self c)
  /\ stats_client (log_hit self c) <> stats_client (log_failure self c)
  /\ stats_client (log_success self c) <> stats_client (log_failure self c).
Proof.
  intros Hlog. unfold log_hit, log_success, log_failure, stat_count.
  rewrite Hlog. cbn [stats_client].
  repeat split; intros H; apply app_inv_head in H; injection H as H;
    apply append_inj_r in H.
  - apply (f_equal String.length) in H.
    rewrite !append_length in H. simpl in H. lia.
  - apply (f_equal String.length) in H.
    rewrite !append_length in H. simpl in H. lia.
  - do 5 apply append_inj_r in H. discriminate H.
Qed.

Lemma telemetry_names_distinct_witness :
  stats_client (log_hit test_provider no_clients)
  <> stats_client (log_success test_provider no_clients)
  /\ stats_client (log_hit test_provider no_clients)
     <> stats_client (log_failure test_provider no_clients)
  /\ stats_client (log_success test_provider no_clients)
     <> stats_client (log_failure test_provider no_clients).
Proof.
  apply (telemetry_names_distinct test_provider no_clients).
  reflexivity.
Defined.

(** ** Metric names from request paths *)

Lemma occurs_replace_char_old (old new : ascii) (s : string) :
  old <> new -> occurs old (replace_char old new s) = false.
Proof.
  intros Hne. induction s as [|a s IH]; simpl; [done|].
  rewrite IH, orb_false_r.
  destruct (Ascii.eqb a old) eqn:E; [|done].
  apply Ascii.eqb_neq. congruence.
Qed.

Lemma occurs_replace_char_other (c old new : ascii) (s : string) :
  c <> new -> occurs c s = false -> occurs c (replace_char old new s) = false.
Proof.
  intros Hne. induction s as [|a s IH]; simpl; [done|].
  intros [Ha Hs]%orb_false_iff. rewrite (IH Hs), orb_false_r.
  destruct (Ascii.eqb a old); [|done].
  apply Ascii.eqb_neq. congruence.
Qed.

Lemma occurs_lstrip_char (c d : ascii) (s : string) :
  occurs c s = false -> occurs c (lstrip_char d s) = false.
Proof.
  induction s as [|a s IH]; simpl; [done|].
  intros H. destruct (Ascii.eqb a d); [|done].
  apply orb_false_iff in H as [_ Hs]. by apply IH.
Qed.

Lemma lstrip_char_head (c : ascii) (s t : string) :
  lstrip_char c s <> String c t.
Proof.
  induction s as [|a s IH]; simpl; [done|].
  destruct (Ascii.eqb a c) eqn:E; [done|].
  apply Ascii.eqb_neq in E. congruence.
Qed.

Lemma replace_char_absent (old new : ascii) (s : string) :
  occurs old s = false -> replace_char old new s = s.
Proof.
  induction s as [|a s IH]; simpl; [done|].
  intros [Ha Hs]%orb_false_iff. by rewrite Ha, (IH Hs).
Qed.

Lemma lstrip_char_no_head (c : ascii) (s : string) :
  (forall t, s <> String c t) -> lstrip_char c s = s.
Proof.
  destruct s as [|a s]; simpl; [done|]. intros H.
  destruct (Ascii.eqb a c) eqn:E; [|done].
  apply Ascii.eqb_eq in E. subst a. by destruct (H s).
Qed.

Lemma replace_char_head (old new c : ascii) (s t : string) :
  c <> new -> replace_char old new s = String c t ->
  exists t', s = String c t'.
Proof.
  intros Hne. destruct s as [|a s]; simpl; [done|].
  destruct (Ascii.eqb a old); intros [= H _]; [congruence|].
  subst a. by eexists.
Qed.

Lemma quoted_path_shape (path : string) :
  occurs "/" (quote_statsd_path path) = false
  /\ occurs "@" (quote_statsd_path path) = false
  /\ forall t, quote_statsd_path path <> String "." t.
Proof.
  unfold quote_statsd_path. split; [|split].
  - apply occurs_replace_char_other; [done|].
    apply occurs_lstrip_char. by apply occurs_replace_char_old.
  - by apply occurs_replace_char_old.
  - intros t H. apply replace_char_head in H as [t' H]; [|done].
    by apply lstrip_char_head in H.
Qed.

(** X9. A quoted path holds no slash and no at-sign and does not begin
    with a dot. *)
Theorem quote_statsd_path_clean (path : string) :
  occurs "/" (quote_statsd_path path) = false
  /\ occurs "@" (quote_statsd_path path) = false
  /\ forall t, quote_statsd_path path <> String "." t.
Proof. apply quoted_path_shape. Qed.

(** X10. The paths that quoting leaves alone are exactly those without
    a slash, without an at-sign and without a leading dot. *)
Theorem quote_statsd_path_fixed_iff (path : string) :
  quote_statsd_path path = path
  <-> occurs "/" path = false
      /\ occurs "@" path = false
      /\ forall t, path <> String "." t.
Proof.
  split.
  - intros H. rewrite <- H. apply quoted_path_shape.
  - intros (Hs & Ha & Hd). unfold quote_statsd_path.
    rewrite (replace_char_absent "/" "." path Hs).
    rewrite (lstrip_char_no_head "." path Hd).
    by apply replace_char_absent.
Qed.

(** X11. Quoting is idempotent. *)
Theorem quote_statsd_path_idempotent (path : string) :
  quote_statsd_path (quote_statsd_path path) = quote_statsd_path path.
Proof.
  destruct (quoted_path_shape path) as (Hs & Ha & Hd).
  unfold quote_statsd_path at 1.
  rewrite (replace_char_absent "/" "." _ Hs).
  rewrite (lstrip_char_no_head "." _ Hd).
  by apply replace_char_absent.
Qed.

Example quote_statsd_path_search :
  quote_statsd_path "/v1/search" = "v1.search".
Proof. reflexivity. Qed.

(** ** Packets of the statsd client *)

Lemma append_nil_l (s : string) : "" +:+ s = s.
Proof. reflexivity. Qed.

Lemma append_cons (a : ascii) (s t : string) :
  String a s +:+ t = String a (s +:+ t).
Proof. reflexivity. Qed.


Lemma append_assoc (s t u : string) : (s +:+ t) +:+ u = s +:+ t +:+ u.
Proof.
  induction s as [|a s IH]; [done|]. rewrite !append_cons. by f_equal.
Qed.

Lemma append_empty_r (s : string) : s +:+ "" = s.
Proof.
  induction s as [|a s IH]; [done|]. rewrite append_cons. by f_equal.
Qed.

Lemma str_truthy_append (s t : string) :
  str_truthy t = true -> str_truthy (s +:+ t) = true.
Proof. destruct s; [done|]. by intros _. Qed.


Lemma tags_truthy_fmap (f : string -> string) (l : list string) :
  tags_truthy (TagsList (f <$> l)) = tags_truthy (TagsList l).
Proof. simpl. by rewrite length_fmap. Qed.

Section ReportFacts.

Variable str_float : Q -> string.
Variables (metric metric_type : string) (value sample_rate rnd : pynum).

(** X12. Without tags the packet is the prefixed metric, the value, the
    type and, for a sampled metric, the rate; the tag settings of the
    client play no part. *)
Theorem report_without_tags (self : StatsClient)
    (tags : option (list string)) :
  sampled sample_rate && num_gt rnd sample_rate = false ->
  default [] tags = [] ->
  _report str_float self metric metric_type value tags sample_rate rnd
  = Some ((if opt_str_truthy (metric_prefix self)
           then format_field (metric_prefix self) +:+ "."
           else "")
          +:+ metric +:+ ":" +:+ str_num str_float value +:+ "|"
          +:+ metric_type
          +:+ (if sampled sample_rate
               then "|@" +:+ str_num str_float sample_rate
               else "")).
Proof.
  intros Hkeep Htags. unfold _report. rewrite Hkeep.
  destruct tags as [[|t l]|]; [|done|]; simpl;
    destruct (opt_str_truthy (metric_prefix self)), (sampled sample_rate);
    simpl; by rewrite ?append_nil_l, ?append_empty_r, ?append_assoc.
Qed.


(** X14. A client built with tag support leaves the metric name alone
    and appends the tags, comma separated, after [|#]; a non-empty
    configured tag prefix is put in front of every tag, followed by an
    underscore. *)
Theorem report_appends_tags (mp tp : option string) (l : list string) :
  l <> [] ->
  sampled sample_rate && num_gt rnd sample_rate = false ->
  _report str_float (StatsClient_init mp tp true)
    metric metric_type value (Some l) sample_rate rnd
  = Some ((if opt_str_truthy mp then format_field mp +:+ "." else "")
          +:+ metric +:+ ":" +:+ str_num str_float value +:+ "|"
          +:+ metric_type
          +:+ (if sampled sample_rate
               then "|@" +:+ str_num str_float sample_rate
               else "")
          +:+ "|#"
          +:+ String.concat ","
                ((fun tag =>
                    (if opt_str_truthy tp
                     then format_field tp +:+ "_"
                     else "") +:+ tag) <$> l)).
Proof.
  intros Hl Hkeep. unfold _report. rewrite Hkeep. cbv zeta.
  destruct l as [|t l]; [done|]. clear Hl.
  cbn [StatsClient_init metric_prefix tag_prefix tag_support negb].
  destruct tp as [tp|]; cbn [opt_str_truthy format_field].
  - destruct (str_truthy tp) eqn:Htp; cbn [opt_str_truthy].
    + rewrite (str_truthy_append tp "_" eq_refl).
      destruct (opt_str_truthy mp), (sampled sample_rate);
        simpl; by rewrite ?append_nil_l, ?append_empty_r, ?append_assoc.
    + rewrite Htp. cbn [tags_truthy length Nat.eqb negb andb tags_items].
      rewrite list_fmap_id.
      destruct (opt_str_truthy mp), (sampled sample_rate);
        simpl; by rewrite ?append_nil_l, ?append_empty_r, ?append_assoc.
  - cbn [tags_truthy length Nat.eqb negb andb tags_items].
    rewrite list_fmap_id.
    destruct (opt_str_truthy mp), (sampled sample_rate);
      simpl; by rewrite ?append_nil_l, ?append_empty_r, ?append_assoc.
Qed.

End ReportFacts.

Lemma report_without_tags_witness :
  _report fraction_str default_client "m.test_hit" "c" (PyInt 1) None
    (PyInt 1) (PyFloat 0)
  = Some "location.m.test_hit:1|c".
Proof.
  apply (report_without_tags fraction_str "m.test_hit" "c" (PyInt 1)
           (PyInt 1) (PyFloat 0) default_client None).
  - reflexivity.
  - reflexivity.
Defined.


Lemma report_appends_tags_witness :
  _report fraction_str (StatsClient_init (Some "location") (Some "geo") true)
    "request" "c" (PyInt 1) (Some ["path:v1.search"; "status:200"])
    (PyInt 1) (PyFloat 0)
  = Some "location.request:1|c|#geo_path:v1.search,geo_status:200".
Proof.
  apply (report_appends_tags fraction_str "request" "c" (PyInt 1)
           (PyInt 1) (PyFloat 0) (Some "location") (Some "geo")
           ["path:v1.search"; "status:200"]).
  - discriminate.
  - reflexivity.
Defined.

Example report_default_client_with_tags :
  _report fraction_str default_client "request" "ms" (PyInt 12)
    (Some ["path:v1.search"; "method:post"]) (PyInt 1) (PyFloat 0)
  = Some "location.request.path_v1.search.method_post:12|ms".
Proof. vm_compute. reflexivity. Qed.

(** ** Timings *)

Lemma py_round_near (q : Q) : (Qabs (inject_Z (py_round q) - q) <= 1 # 2)%Q.
Proof.
  apply Qabs_Qle_condition. unfold py_round.
  destruct (Qle_bool 0 q).
  - pose proof (Qfloor_le (q + (1 # 2))) as Hlo.
    pose proof (Qlt_floor (q + (1 # 2))) as Hhi.
    rewrite inject_Z_plus in Hhi. change (inject_Z 1) with 1%Q in Hhi.
    set (z := inject_Z (Qfloor (q + (1 # 2)))) in *. clearbody z.
    split; lra.
  - pose proof (Qle_ceiling (q - (1 # 2))) as Hlo.
    pose proof (Qceiling_lt (q - (1 # 2))) as Hhi.
    unfold Z.sub in Hhi. rewrite inject_Z_plus in Hhi.
    change (inject_Z (- (1))) with (- (1))%Q in Hhi.
    set (z := inject_Z (Qceiling (q - (1 # 2)))) in *. clearbody z.
    split; lra.
Qed.

(** X15. [timing] always hands the base class a whole number: an
    integer value as it is, a float value as the integer nearest to the
    double-precision product of a thousand and the value, at most one
    half away from that product. *)
Theorem timing_reports_whole_number {R : Type} (float_mul : Q -> Q -> Q)
    (super_timing : string -> pynum -> option (list string) -> pynum -> R)
    (metric : string) (value : pynum) (tags : option (list string))
    (sample_rate : pynum) :
  exists z,
    timing float_mul super_timing metric value tags sample_rate
    = super_timing metric (PyInt z) tags sample_rate
    /\ match value with
       | PyInt x => z = x
       | PyFloat q => (Qabs (inject_Z z - float_mul 1000 q) <= 1 # 2)%Q
       end.
Proof.
  destruct value as [x|q].
  - by exists x.
  - exists (py_round (float_mul 1000%Q q)).
    split; [done|apply py_round_near].
Qed.

Example py_round_halves :
  py_round (5 # 2) = 3 /\ py_round (-5 # 2) = -3 /\ py_round (12 # 5) = 2.
Proof. by vm_compute. Qed.

(** ** The logging tween *)

Section TweenFacts.

Variable handler : Request -> Registry -> handled * Registry.
Variable request : Request.
Variables start now : Q.
Variable reg : Registry.

(** X16. The tween is transparent: it returns the handler's response,
    or re-raises the handler's exception, whatever it records. *)
Theorem log_tween_transparent :
  (log_tween handler request start now reg).1 = (handler request reg).1.
Proof.
  unfold log_tween. destruct (handler request reg) as [[r|exc] reg1]; [done|].
  simpl.
  by destruct (is_BaseClientError exc || is_HTTPRedirection exc),
    (is_HTTPClientError exc), (is_Exception exc).
Qed.

(** X17. What the tween adds to the stats client, after whatever the
    handler recorded, is either nothing or one timing followed by one
    counter, both named [request]; the counter carries the tags of the
    timing plus a status tag. *)
Theorem log_tween_timer_then_counter :
  stats_calls (log_tween handler request start now reg).2
  = stats_calls (handler request reg).2
  \/ exists status : Z,
       stats_calls (log_tween handler request start now reg).2
       = stats_calls (handler request reg).2
         ++ [Timing "request" (py_round ((now - start) * 1000))
               ["path:" +:+ quote_statsd_path (path request);
                "method:" +:+ lower (method request)];
             Incr "request"
               ["path:" +:+ quote_statsd_path (path request);
                "method:" +:+ lower (method request);
                "status:" +:+ pretty status]].
Proof.
  unfold log_tween. destruct (handler request reg) as [[r|exc] reg1].
  - right. exists (status_code r). simpl. by rewrite <- app_assoc.
  - destruct (is_BaseClientError exc || is_HTTPRedirection exc).
    { right. exists (exc_status_code exc). simpl. by rewrite <- app_assoc. }
    destruct (is_HTTPClientError exc); [by left|].
    destruct (is_Exception exc); [|by left].
    right. eexists. simpl. by rewrite <- app_assoc.
Qed.

(** X18. The raven client receives something from the tween exactly
    when the handler raised an [Exception] that is neither one of the
    service's client errors, nor a redirection, nor any other HTTP
    client error; what it receives is that exception, once. *)
Theorem log_tween_capture_iff :
  (raven_captures (log_tween handler request start now reg).2
   <> raven_captures (handler request reg).2
   <-> exists exc,
         (handler request reg).1 = Failed exc
         /\ is_BaseClientError exc = false
         /\ is_HTTPRedirection exc = false
         /\ is_HTTPClientError exc = false
         /\ is_Exception exc = true)
  /\ (raven_captures (log_tween handler request start now reg).2
      = raven_captures (handler request reg).2
      \/ exists exc,
           (handler request reg).1 = Failed exc
           /\ raven_captures (log_tween handler request start now reg).2
              = raven_captures (handler request reg).2 ++ [exc]).
Proof.
  assert (Hgrow : forall (l : list raised) x, l ++ [x] <> l).
  { intros l x H. apply (f_equal length) in H.
    rewrite length_app in H. simpl in H. lia. }
  unfold log_tween. destruct (handler request reg) as [[r|exc] reg1]; simpl.
  { split; [|by left]. split; [done|]. by intros (exc & ? & _). }
  destruct (is_BaseClientError exc) eqn:Hb; simpl.
  { split; [|by left]. split; [done|]. intros (x & [= <-] & ? & _). congruence. }
  destruct (is_HTTPRedirection exc) eqn:Hr; simpl.
  { split; [|by left]. split; [done|].
    intros (x & [= <-] & _ & ? & _). congruence. }
  destruct (is_HTTPClientError exc) eqn:Hc; simpl.
  { split; [|by left]. split; [done|].
    intros (x & [= <-] & _ & _ & ? & _). congruence. }
  destruct (is_Exception exc) eqn:He; simpl.
  - split; [|right; by exists exc].
    split; [intros _; by exists exc|intros _; apply Hgrow].
  - split; [|by left]. split; [done|].
    intros (x & [= <-] & _ & _ & _ & ?). congruence.
Qed.

(** X19. An HTTP client error that is not one of the service's own and
    not a redirection passes through without a trace: no timing, no
    counter, no capture. *)
Theorem log_tween_client_error_silent (exc : raised) :
  (handler request reg).1 = Failed exc ->
  is_BaseClientError exc = false ->
  is_HTTPRedirection exc = false ->
  is_HTTPClientError exc = true ->
  log_tween handler request start now reg = handler request reg.
Proof.
  unfold log_tween. destruct (handler request reg) as [out reg1]. simpl.
  intros -> Hb Hr Hc. by rewrite Hb, Hr, Hc.
Qed.

(** X20. An exception that is not an HTTP exception is counted under
    status 500, after a timing, and captured. *)
Theorem log_tween_unexpected_error (exc : raised) :
  (handler request reg).1 = Failed exc ->
  is_BaseClientError exc = false ->
  is_HTTPRedirection exc = false ->
  is_HTTPClientError exc = false ->
  is_HTTPException exc = false ->
  is_Exception exc = true ->
  stats_calls (log_tween handler request start now reg).2
  = stats_calls (handler request reg).2
    ++ [Timing "request" (py_round ((now - start) * 1000))
          ["path:" +:+ quote_statsd_path (path request);
           "method:" +:+ lower (method request)];
        Incr "request"
          ["path:" +:+ quote_statsd_path (path request);
           "method:" +:+ lower (method request);
           "status:500"]]
  /\ raven_captures (log_tween handler request start now reg).2
     = raven_captures (handler request reg).2 ++ [exc].
Proof.
  unfold log_tween. destruct (handler request reg) as [out reg1]. simpl.
  intros -> Hb Hr Hc Hh He. rewrite Hb, Hr, Hc, Hh, He. simpl.
  by rewrite <- app_assoc.
Qed.

End TweenFacts.

Lemma log_tween_client_error_silent_witness :
  log_tween not_found_handler search_request 10 (21 # 2) no_registry
  = not_found_handler search_request no_registry.
Proof.
  apply (log_tween_client_error_silent not_found_handler search_request
           10 (21 # 2) no_registry not_found); reflexivity.
Defined.

Lemma log_tween_unexpected_error_witness :
  stats_calls (log_tween crash_handler search_request 10 (21 # 2) no_registry).2
  = stats_calls (crash_handler search_request no_registry).2
    ++ [Timing "request" (py_round (((21 # 2) - 10) * 1000))
          ["path:" +:+ quote_statsd_path (path search_request);
           "method:" +:+ lower (method search_request)];
        Incr "request"
          ["path:" +:+ quote_statsd_path (path search_request);
           "method:" +:+ lower (method search_request);
           "status:500"]]
  /\ raven_captures
       (log_tween crash_handler search_request 10 (21 # 2) no_registry).2
     = raven_captures (crash_handler search_request no_registry).2 ++ [crash].
Proof.
  apply (log_tween_unexpected_error crash_handler search_request
           10 (21 # 2) no_registry crash); reflexivity.
Defined.

Example log_tween_ok_request :
  log_tween ok_handler search_request 10 (21 # 2) no_registry
  = (Responded {| status_code := 200; body := "{}" |},
     {| stats_calls :=
          [Timing "request" 500 ["path:v1.search"; "method:post"];
           Incr "request" ["path:v1.search"; "method:post"; "status:200"]];
        raven_captures := [] |}).
Proof. vm_compute. reflexivity. Qed.

(** ** The in-memory clients *)

Lemma deque_append_drop {A : Type} (n : nat) (x : A) (q : list A) :
  (length q <= n)%nat ->
  deque_append n x q = drop (length (q ++ [x]) - n) (q ++ [x]).
Proof.
  intros Hq. unfold deque_append. rewrite length_app. simpl.
  destruct (n <? length q + 1)%nat eqn:E.
  - apply Nat.ltb_lt in E. by replace (length q + 1 - n)%nat with 1%nat by lia.
  - apply Nat.ltb_ge in E. by replace (length q + 1 - n)%nat with 0%nat by lia.
Qed.

Lemma deque_append_length {A : Type} (n : nat) (x : A) (q : list A) :
  (length q <= n)%nat -> (length (deque_append n x q) <= n)%nat.
Proof.
  intros Hq. rewrite deque_append_drop by done.
  rewrite length_drop, length_app. simpl. lia.
Qed.

Lemma deque_sends {A : Type} (n : nat) (items q : list A) :
  (length q <= n)%nat ->
  foldl (fun q x => deque_append n x q) q items
  = drop (length (q ++ items) - n) (q ++ items).
Proof.
  revert q. induction items as [|x items IH]; intros q Hq; simpl.
  - rewrite app_nil_r. by replace (length q - n)%nat with 0%nat by lia.
  - rewrite IH by by apply deque_append_length.
    rewrite deque_append_drop by done.
    rewrite <- drop_app_le by (rewrite length_app; simpl; lia).
    rewrite drop_drop, length_drop. rewrite <- !app_assoc. simpl.
    f_equal. rewrite !length_app. simpl. lia.
Qed.

(** X21. After a [_clear], the stats client's queue holds the last
    hundred packets sent to it, in order, and all of them if there were
    fewer. *)
Theorem debug_stats_keeps_last_hundred (msgs packets : list string) :
  foldl (fun q packet => _send_to_server packet q) (_clear msgs) packets
  = drop (length packets - 100) packets.
Proof.
  unfold _send_to_server, _clear.
  rewrite (deque_sends 100 packets []) by (simpl; lia). done.
Qed.

(** X22. Sending to a raven queue of at most a hundred messages keeps
    the bound and puts the new message last; below the bound nothing is
    lost, at the bound exactly the oldest message is. *)
Theorem debug_raven_send_bounded {A : Type} (data : A) (msgs : list A) :
  (length msgs <= 100)%nat ->
  (length (send data msgs) <= 100)%nat
  /\ last (send data msgs) = Some data
  /\ ((length msgs < 100)%nat -> send data msgs = msgs ++ [data])
  /\ (length msgs = 100%nat -> send data msgs = drop 1 msgs ++ [data]).
Proof.
  intros Hq. unfold send. split; [by apply deque_append_length|].
  unfold deque_append. rewrite length_app. simpl.
  destruct (100 <? length msgs + 1)%nat eqn:E.
  - apply Nat.ltb_lt in E.
    assert (Hlen : length msgs = 100%nat) by lia.
    rewrite drop_app_le by lia.
    split; [apply last_snoc|]. split; [lia|done].
  - apply Nat.ltb_ge in E.
    split; [apply last_snoc|]. split; [done|lia].
Qed.

Lemma debug_raven_send_bounded_witness :
  (length (send "second" ["first"]) <= 100)%nat
  /\ last (send "second" ["first"]) = Some "second"
  /\ ((length ["first"] < 100)%nat -> send "second" ["first"]
                                      = ["first"] ++ ["second"])
  /\ (length ["first"] = 100%nat -> send "second" ["first"]
                                    = drop 1 ["first"] ++ ["second"]).
Proof.
  apply (debug_raven_send_bounded "second" ["first"]). simpl. lia.
Defined.

(** ** The global raven client *)

Lemma raven_transport_unknown (t : string) :
  RAVEN_TRANSPORTS !! t = None
  <-> t <> "gevent" /\ t <> "sync" /\ t <> "threaded".
Proof.
  unfold RAVEN_TRANSPORTS. rewrite !lookup_insert_None, lookup_empty.
  intuition congruence.
Qed.

Section RavenFacts.

Context {Client Config : Type}.
Variable RavenClient : Config -> transport_class -> result Client.
Variables (config : Config) (transport : option string).
Variables (_client RAVEN_CLIENT : option Client).

(** X23. [configure_raven] fails exactly when no client is handed in
    and either the transport is missing or not one of [gevent], [sync]
    and [threaded], in which case it raises [ValueError], or the
    transport is known and the client constructor raises, in which case
    that exception is the one raised. *)
Theorem configure_raven_raises_iff (e : exception) :
  (configure_raven RavenClient config transport _client RAVEN_CLIENT).1
  = Raises e
  <-> _client = None
      /\ ((e = ValueError
           /\ forall t, transport = Some t ->
                t <> "gevent" /\ t <> "sync" /\ t <> "threaded")
          \/ exists t tr,
               transport = Some t
               /\ RAVEN_TRANSPORTS !! t = Some tr
               /\ RavenClient config tr = Raises e).
Proof.
  unfold configure_raven. destruct _client as [c|]; simpl.
  { split; [done|]. by intros [? _]. }
  destruct transport as [t|]; simpl.
  - destruct (RAVEN_TRANSPORTS !! t) as [tr|] eqn:Ht; simpl.
    + destruct (RavenClient config tr) as [cl|e'] eqn:Hc; simpl.
      * split; [done|]. intros (_ & [(_ & H) | (t' & tr' & [= <-] & Ht' & Hc')]).
        -- specialize (H t eq_refl). apply raven_transport_unknown in H.
           congruence.
        -- congruence.
      * split.
        -- intros [= <-]. split; [done|]. right. by exists t, tr.
        -- intros (_ & [(_ & H) | (t' & tr' & [= <-] & Ht' & Hc')]).
           ++ specialize (H t eq_refl). apply raven_transport_unknown in H.
              congruence.
           ++ congruence.
    + split.
      * intros [= <-]. split; [done|]. left. split; [done|].
        intros t' [= <-]. by apply raven_transport_unknown.
      * intros (_ & [(-> & _) | (t' & tr' & [= <-] & Ht' & _)]);
          [done|congruence].
  - split.
    + intros [= <-]. split; [done|]. left. by split.
    + intros (_ & [(-> & _) | (t' & tr' & Ht & _)]); [done|congruence].
Qed.

(** X24. A successful [configure_raven] leaves the returned client in
    the global, and that client is never [None]; a client handed in is
    the one installed, whatever the transport.  A failed call leaves the
    global as it was. *)
Theorem configure_raven_global :
  match configure_raven RavenClient config transport _client RAVEN_CLIENT with
  | (Returns r, g) =>
    g = r /\ is_Some r /\ (is_Some _client -> r = _client)
  | (Raises _, g) => g = RAVEN_CLIENT
  end.
Proof.
  unfold configure_raven. destruct _client as [c|]; simpl.
  { split; [done|]. split; [by eexists|done]. }
  destruct (transport ≫= (fun t => RAVEN_TRANSPORTS !! t)) as [tr|]; simpl;
    [|done].
  destruct (RavenClient config tr) as [cl|e]; simpl; [|done].
  split; [done|]. split; [by eexists|]. by intros [? ?].
Qed.

End RavenFacts.

Example configure_raven_sync :
  configure_raven (fun (dsn : string) tr => Returns (dsn, tr)) "dsn"
    (Some "sync") None None
  = (Returns (Some ("dsn", HTTPTransport)), Some ("dsn", HTTPTransport)).
Proof. vm_compute. reflexivity. Qed.
